(** * browsertime: the wait and single-click commands

    A shallow embedding of the two command classes of the repository,
    [Wait] (logger [browsertime.command.wait]) and [SingleClick] (logger
    [browsertime.command.mouse]), and the properties of their timeout
    defaulting, failure translation and optional settle-wait.

    Both classes are thin asynchronous wrappers around a browser driver.
    The driver is an external collaborator, so it appears here as an
    oracle over an abstract driver state; every call a command makes to
    it, every settlement it gets back and every log record it writes is
    collected, in program order, in the run's event list. *)

From Stdlib Require Import ZArith List String Ascii Bool Lia DecimalString.
From Stdlib Require DecimalPos DecimalZ.
Import ListNotations.
Local Open Scope string_scope.
Local Open Scope Z_scope.

(* ================================================================= *)
(** ** JavaScript values *)

Module Js.

(** The values that reach the commands.  [VNum] carries the integer-valued
    numbers (millisecond counts); [VNaN] is kept apart because the code
    tests numbers for truthiness.  [VObj] is a plain record given by its
    own properties, the first binding of a key being the one in force.
    [VElement] is a driver element handle and [VError] an error object
    with its [name] and [message]. *)
#[warnings="-register-all"]
Inductive Val : Type :=
| VUndefined
| VNull
| VBool (b : bool)
| VNum (n : Z)
| VNaN
| VStr (s : string)
| VObj (props : list (string * Val))
| VElement (handle : nat)
| VError (name message : string).

(** ToBoolean. *)
Definition truthy (v : Val) : bool :=
  match v with
  | VUndefined | VNull | VNaN => false
  | VBool b => b
  | VNum n => negb (n =? 0)
  | VStr s => negb (String.eqb s "")
  | VObj _ | VElement _ | VError _ _ => true
  end.

(** [a || b]. *)
Definition or_else (a b : Val) : Val := if truthy a then a else b.

(** Number.prototype.toString on an integer-valued number: the decimal
    digits, with a sign.  That is what a number prints as while its
    magnitude is below 10^21, and every integer up to 2^53 is a number;
    beyond that range the digits written here are not what the code
    prints, and the properties that read a number back from its digits
    are stated within 2^53. *)
Definition number_to_string (n : Z) : string :=
  NilZero.string_of_int (Z.to_int n).

(** ToString, as applied by template literals and by [+] on a string,
    on the values it does not throw on.  A record prints through the
    [toString] it inherits; a record that carries a [toString] of its
    own makes the conversion throw, which this function does not show,
    so the properties that print a [maxTime] are stated for a [maxTime]
    that is a number or omitted. *)
Definition to_string (v : Val) : string :=
  match v with
  | VUndefined => "undefined"
  | VNull => "null"
  | VBool true => "true"
  | VBool false => "false"
  | VNum n => number_to_string n
  | VNaN => "NaN"
  | VStr s => s
  | VObj _ | VElement _ => "[object Object]"
  | VError name message =>
      if String.eqb message "" then name else name ++ ": " ++ message
  end.

(** [new Error(message)]. *)
Definition new_Error (message : string) : Val := VError "Error" message.

Fixpoint lookup (key : string) (props : list (string * Val)) : option Val :=
  match props with
  | [] => None
  | (k, v) :: rest => if String.eqb k key then Some v else lookup key rest
  end.

(** [key in v]: a TypeError on anything that is not an object. *)
Definition has_property (key : string) (v : Val) : Val + bool :=
  match v with
  | VObj props =>
      inr (match lookup key props with Some _ => true | None => false end)
  | VElement _ | VError _ _ => inr false
  | _ =>
      inl (VError "TypeError"
             ("Cannot use 'in' operator to search for '" ++ key ++ "' in "
              ++ to_string v))
  end.

(** [v.key] on a value already known to be truthy. *)
Definition get (key : string) (v : Val) : Val :=
  match v with
  | VObj props =>
      match lookup key props with Some x => x | None => VUndefined end
  | _ => VUndefined
  end.

(** [v === true]. *)
Definition is_true (v : Val) : bool :=
  match v with VBool true => true | _ => false end.

End Js.
Import Js.

(* ================================================================= *)
(** ** The driver boundary and the run of an async function *)

Module Driver.

(** [By.id], [By.xpath], [By.css]. *)
Inductive Locator : Type :=
| ById (id : string)
| ByXpath (xpath : string)
| ByCss (selector : string).

(** What [driver.wait] is asked to wait for: [until.elementLocated(by)],
    or the closure [() => driver.executeScript(script)], which captures
    nothing but the driver and the script text. *)
Inductive Condition : Type :=
| ElementLocated (by_ : Locator)
| ScriptTruthy (script : string).

(** The calls the two classes make across the boundary. *)
Inductive Call : Type :=
| FindElement (by_ : Locator)            (* driver.findElement(by) *)
| ActionsClick (target : option Val)     (* actions.click(element?) *)
| ActionsPerform                         (* actions.perform() *)
| DriverWait (c : Condition) (time : Val)(* driver.wait(c, time) *)
| ExtraWait (check : Val).               (* browser.extraWait(check) *)

(** How a call, or a whole command, ends. *)
Inductive Outcome : Type :=
| Resolved (value : Val)
| Rejected (reason : Val).

Inductive Level : Type := LvError | LvVerbose.

(** What a run leaves behind, in program order: calls started, calls
    settled, log records, and the timer of [setTimeout] being armed and
    firing. *)
Inductive Event : Type :=
| EvCall (c : Call)
| EvSettled (c : Call) (o : Outcome)
| EvLog (level : Level) (args : list Val)
| EvSetTimeout (ms : Val)
| EvTimerFired (ms : Val).

(** The browser session: how it answers each call in a given state. *)
Definition Browser (W : Type) : Type := Call -> W -> Outcome * W.

Section Run.
Context {W : Type}.

(** Either a value or a thrown reason. *)
Inductive Res (A : Type) : Type :=
| Ok (a : A)
| Throw (reason : Val).
Arguments Ok {A} a.
Arguments Throw {A} reason.

(** A piece of an async body: from a driver state to a result, the
    next driver state and the events emitted on the way. *)
Definition M (A : Type) : Type := W -> Res A * W * list Event.

Definition ret {A} (a : A) : M A := fun st => (Ok a, st, []).

Definition throw {A} (reason : Val) : M A := fun st => (Throw reason, st, []).

Definition bind {A B} (m : M A) (k : A -> M B) : M B :=
  fun st =>
    match m st with
    | (Ok a, st1, ev1) =>
        let '(r, st2, ev2) := k a st1 in (r, st2, (ev1 ++ ev2)%list)
    | (Throw e, st1, ev1) => (Throw e, st1, ev1)
    end.

Definition emit (e : Event) : M unit := fun st => (Ok tt, st, [e]).

(** [try { body } catch (error) { handler(error) }]. *)
Definition try_catch {A} (body : M A) (handler : Val -> M A) : M A :=
  fun st =>
    match body st with
    | (Ok a, st1, ev1) => (Ok a, st1, ev1)
    | (Throw e, st1, ev1) =>
        let '(r, st2, ev2) := handler e st1 in (r, st2, (ev1 ++ ev2)%list)
    end.

(** A promise is a pending operation; running it is its settlement. *)
Definition Promise : Type := M Val.

(** What the body of an async function hands to its own promise: it
    falls off the end, or it returns a promise, which the function's
    promise then follows. *)
Inductive Completion : Type :=
| Fallthrough
| ReturnPromise (p : Promise).

Variable browser : Browser W.

(** Settlement of a call: the browser answers and the answer is
    recorded. *)
Definition settle (c : Call) : Promise :=
  fun st =>
    let '(o, st1) := browser c st in
    (match o with Resolved v => Ok v | Rejected e => Throw e end,
     st1, [EvSettled c o]).

(** Starting an asynchronous call gives back its promise. *)
Definition invoke (c : Call) : M Promise :=
  bind (emit (EvCall c)) (fun _ => ret (settle c)).

(** [await p]. *)
Definition await (p : Promise) : M Val := p.

(** A synchronous call: started and answered in one step. *)
Definition call_sync (c : Call) : M Val :=
  bind (emit (EvCall c)) (fun _ => settle c).

Definition log_error (args : list Val) : M unit := emit (EvLog LvError args).
Definition log_verbose (error : Val) : M unit :=
  emit (EvLog LvVerbose [error]).

(** [async function] wrapper: the promise the caller gets.  A thrown
    body rejects it; a returned promise is followed to its own
    settlement, outside any [try] of the body. *)
Definition async_fn (body : M Completion) : Promise :=
  fun st =>
    match body st with
    | (Ok Fallthrough, st1, ev1) => (Ok VUndefined, st1, ev1)
    | (Ok (ReturnPromise p), st1, ev1) =>
        let '(r, st2, ev2) := p st1 in (r, st2, (ev1 ++ ev2)%list)
    | (Throw e, st1, ev1) => (Throw e, st1, ev1)
    end.

(** What the caller observes of a command started in state [st]. *)
Definition outcome (p : Promise) (st : W) : Outcome :=
  match p st with
  | (Ok v, _, _) => Resolved v
  | (Throw e, _, _) => Rejected e
  end.

Definition events (p : Promise) (st : W) : list Event := snd (p st).

Definition final_state (p : Promise) (st : W) : W := snd (fst (p st)).

End Run.

Arguments Ok {A} a.
Arguments Throw {A} reason.
Arguments M : clear implicits.
Arguments Promise : clear implicits.
Arguments Completion : clear implicits.

Declare Scope js_scope.
Delimit Scope js_scope with js.
Notation "x <- m ;; k" := (bind m (fun x => k))
  (at level 61, m at next level, right associativity) : js_scope.
Notation "m ;;; k" := (bind m (fun _ => k))
  (at level 61, right associativity) : js_scope.

End Driver.
Import Driver.
Local Open Scope js_scope.

(* ================================================================= *)
(** ** class Wait *)

Module Wait.
Section Wait.
Context {W : Type}.
(** [this.browser] and [this.pageCompleteCheck]. *)
Variable browser : Browser W.
Variable pageCompleteCheck : Val.
(** The scheduling primitive: what the passing of a [setTimeout(_, ms)]
    does to the world.  Given a function to call back it never throws,
    whatever [ms] is. *)
Variable timer : Val -> W -> W.

(** [const delay = ms => new Promise(res => setTimeout(res, ms))]: the
    executor arms the timer and has a resolve callback only; the
    promise resolves, with no value, when the timer fires. *)
Definition delay (ms : Val) : M W (Promise W) :=
  emit (EvSetTimeout ms) ;;;
  ret (fun st => (Ok VUndefined, timer ms st, [EvTimerFired ms])).

(** [async byId(id, maxTime)]: wait for an element with the id to
    appear, for at most [maxTime] ms. *)
Definition byId (id : string) (maxTime : Val) : Promise W :=
  async_fn (
    let time := or_else maxTime (VNum 6000) in
    try_catch
      (p <- invoke browser (DriverWait (ElementLocated (ById id)) time) ;;
       await p ;;;
       ret Fallthrough)
      (fun error =>
         log_error [VStr "Element by id %s was not located in %s ms";
                    VStr id; time] ;;;
         log_verbose error ;;;
         throw (new_Error ("Element by id " ++ id
                           ++ " was not located in " ++ to_string time
                           ++ " ms")))).

(** [async byXpath(xpath, maxTime)]. *)
Definition byXpath (xpath : string) (maxTime : Val) : Promise W :=
  async_fn (
    let time := or_else maxTime (VNum 6000) in
    try_catch
      (p <- invoke browser (DriverWait (ElementLocated (ByXpath xpath)) time) ;;
       await p ;;;
       ret Fallthrough)
      (fun error =>
         log_error [VStr "Element by xpath %s was not located in %s ms";
                    VStr xpath; time] ;;;
         log_verbose error ;;;
         throw (new_Error ("Element by xpath " ++ xpath
                           ++ " was not located in " ++ to_string time
                           ++ " ms")))).

(** [async bySelector(selector, maxTime)]. *)
Definition bySelector (selector : string) (maxTime : Val) : Promise W :=
  async_fn (
    let time := or_else maxTime (VNum 6000) in
    try_catch
      (p <- invoke browser
             (DriverWait (ElementLocated (ByCss selector)) time) ;;
       await p ;;;
       ret Fallthrough)
      (fun error =>
         log_error [VStr "Element by selector %s was not located in %s ms";
                    VStr selector; time] ;;;
         log_verbose error ;;;
         throw (new_Error ("Element by selector " ++ selector
                           ++ " was not located in " ++ to_string time
                           ++ " ms")))).

(** [async byTime(ms) { return delay(ms); }]. *)
Definition byTime (ms : Val) : Promise W :=
  async_fn (p <- delay ms ;; ret (ReturnPromise p)).

(** [async byPageToComplete()]: returns
    [this.browser.extraWait(this.pageCompleteCheck)]. *)
Definition byPageToComplete : Promise W :=
  async_fn (p <- invoke browser (ExtraWait pageCompleteCheck) ;;
            ret (ReturnPromise p)).

(** [async byCondition(jsExpression, maxTime)]: the driver waits on the
    closure that executes the script [return <jsExpression>]. *)
Definition byCondition (jsExpression : string) (maxTime : Val) : Promise W :=
  async_fn (
    let time := or_else maxTime (VNum 6000) in
    try_catch
      (let script := "return " ++ jsExpression in
       p <- invoke browser (DriverWait (ScriptTruthy script) time) ;;
       await p ;;;
       ret Fallthrough)
      (fun error =>
         log_error [VStr "Condition was not met"; VStr jsExpression; time] ;;;
         log_verbose error ;;;
         throw (new_Error ("Condition " ++ jsExpression
                           ++ " was not met in " ++ to_string time
                           ++ " ms")))).

End Wait.
End Wait.

(* ================================================================= *)
(** ** class SingleClick *)

Module SingleClick.
Section SingleClick.
Context {W : Type}.
(** [this.browser] and [this.pageCompleteCheck]; [this.actions] is the
    action sequence of the driver, reached through [ActionsClick] and
    [ActionsPerform]. *)
Variable browser : Browser W.
Variable pageCompleteCheck : Val.

(** [options && 'wait' in options && options.wait === true], as the
    test of an [if]. *)
Definition wait_requested (options : Val) : M W bool :=
  if truthy options then
    match has_property "wait" options with
    | inl type_error => throw type_error
    | inr false => ret false
    | inr true => ret (is_true (get "wait" options))
    end
  else ret false.

(** [async byXpath(xpath, options)]: find the element, click it, and
    if asked return the page-complete wait.  The [return] inside the
    [try] hands the promise over without awaiting it. *)
Definition byXpath (xpath : string) (options : Val) : Promise W :=
  async_fn (
    try_catch
      (p <- invoke browser (FindElement (ByXpath xpath)) ;;
       element <- await p ;;
       call_sync browser (ActionsClick (Some element)) ;;;
       q <- invoke browser ActionsPerform ;;
       await q ;;;
       requested <- wait_requested options ;;
       if requested : bool then
         r <- invoke browser (ExtraWait pageCompleteCheck) ;;
         ret (ReturnPromise r)
       else ret Fallthrough)
      (fun error =>
         log_error [VStr "Could not single click on element with xpath %s";
                    VStr xpath] ;;;
         log_verbose error ;;;
         throw (new_Error
                  ("Could not single click on element with xpath "
                   ++ xpath)))).

(** [async bySelector(selector, options)]. *)
Definition bySelector (selector : string) (options : Val) : Promise W :=
  async_fn (
    try_catch
      (p <- invoke browser (FindElement (ByCss selector)) ;;
       element <- await p ;;
       call_sync browser (ActionsClick (Some element)) ;;;
       q <- invoke browser ActionsPerform ;;
       await q ;;;
       requested <- wait_requested options ;;
       if requested : bool then
         r <- invoke browser (ExtraWait pageCompleteCheck) ;;
         ret (ReturnPromise r)
       else ret Fallthrough)
      (fun error =>
         log_error
           [VStr "Could not single click on element with selector %s";
            VStr selector] ;;;
         log_verbose error ;;;
         throw (new_Error
                  ("Could not single click on element with selector "
                   ++ selector)))).

(** [async atCursor(options)]: a click with no element, at the cursor. *)
Definition atCursor (options : Val) : Promise W :=
  async_fn (
    try_catch
      (call_sync browser (ActionsClick None) ;;;
       q <- invoke browser ActionsPerform ;;
       await q ;;;
       requested <- wait_requested options ;;
       if requested : bool then
         r <- invoke browser (ExtraWait pageCompleteCheck) ;;
         ret (ReturnPromise r)
       else ret Fallthrough)
      (fun error =>
         log_error [VStr "Could not perform single click"] ;;;
         log_verbose error ;;;
         throw (new_Error "Could not perform single click"))).

End SingleClick.
End SingleClick.

(* ================================================================= *)
(** ** The commands as one family *)

Module Commands.

(** The three locator kinds of the element waits and of the clicks. *)
Inductive Kind : Type := KId | KXpath | KSelector.

Definition kind_name (k : Kind) : string :=
  match k with KId => "id" | KXpath => "xpath" | KSelector => "selector" end.

Definition locator (k : Kind) (x : string) : Locator :=
  match k with KId => ById x | KXpath => ByXpath x | KSelector => ByCss x end.

(** Where a single click goes. *)
Inductive ClickTarget : Type :=
| OnXpath (xpath : string)
| OnSelector (selector : string)
| AtCursor.

(** The four waits that take a [maxTime]. *)
Inductive TimedWait : Type :=
| ForElement (k : Kind) (x : string)
| ForCondition (jsExpression : string).

(** Every operation of the two classes, with its arguments. *)
Inductive Command : Type :=
| WaitTimed (w : TimedWait) (maxTime : Val)
| WaitByTime (ms : Val)
| WaitByPageToComplete
| Click (target : ClickTarget) (options : Val).

Section Dispatch.
Context {W : Type}.
Variable browser : Browser W.
Variable pageCompleteCheck : Val.
Variable timer : Val -> W -> W.

Definition wait_by (k : Kind) (x : string) (maxTime : Val) : Promise W :=
  match k with
  | KId => Wait.byId browser x maxTime
  | KXpath => Wait.byXpath browser x maxTime
  | KSelector => Wait.bySelector browser x maxTime
  end.

Definition timed_wait (w : TimedWait) (maxTime : Val) : Promise W :=
  match w with
  | ForElement k x => wait_by k x maxTime
  | ForCondition e => Wait.byCondition browser e maxTime
  end.

Definition click (target : ClickTarget) (options : Val) : Promise W :=
  match target with
  | OnXpath x => SingleClick.byXpath browser pageCompleteCheck x options
  | OnSelector s => SingleClick.bySelector browser pageCompleteCheck s options
  | AtCursor => SingleClick.atCursor browser pageCompleteCheck options
  end.

(** The click itself completes from [st], leaving [st3]: the element
    is found, the click is queued and the action sequence performs. *)
Definition click_completes (l : Locator) (st st3 : W) : Prop :=
  exists element st1 actions st2 done,
    browser (FindElement l) st = (Resolved element, st1)
    /\ browser (ActionsClick (Some element)) st1 = (Resolved actions, st2)
    /\ browser ActionsPerform st2 = (Resolved done, st3).

Definition run (c : Command) : Promise W :=
  match c with
  | WaitTimed w maxTime => timed_wait w maxTime
  | WaitByTime ms => Wait.byTime timer ms
  | WaitByPageToComplete => Wait.byPageToComplete browser pageCompleteCheck
  | Click target options => click target options
  end.
End Dispatch.

(** The condition a timed wait hands to [driver.wait]. *)
Definition condition_of (w : TimedWait) : Condition :=
  match w with
  | ForElement k x => ElementLocated (locator k x)
  | ForCondition e => ScriptTruthy ("return " ++ e)
  end.

(** The message of the [Error] each [catch] block throws. *)
Definition timeout_message (w : TimedWait) (time : Val) : string :=
  match w with
  | ForElement k x =>
      "Element by " ++ kind_name k ++ " " ++ x ++ " was not located in "
      ++ to_string time ++ " ms"
  | ForCondition e =>
      "Condition " ++ e ++ " was not met in " ++ to_string time ++ " ms"
  end.

Definition click_failure_message (target : ClickTarget) : string :=
  match target with
  | OnXpath x => "Could not single click on element with xpath " ++ x
  | OnSelector s => "Could not single click on element with selector " ++ s
  | AtCursor => "Could not perform single click"
  end.

(** The calls started during a run, and the log records written. *)
Fixpoint calls (evs : list Event) : list Call :=
  match evs with
  | [] => []
  | EvCall c :: rest => c :: calls rest
  | _ :: rest => calls rest
  end.

Fixpoint logs (evs : list Event) : list (Level * list Val) :=
  match evs with
  | [] => []
  | EvLog lv args :: rest => (lv, args) :: logs rest
  | _ :: rest => logs rest
  end.

(** The option records [{wait: true}] and [{wait: false}]. *)
Definition wait_true : Val := VObj [("wait", VBool true)].
Definition wait_false : Val := VObj [("wait", VBool false)].

(** An options argument: omitted, or a record of properties. *)
Definition options_arg (o : option (list (string * Val))) : Val :=
  match o with None => VUndefined | Some props => VObj props end.

(** The settle-wait switch in the words of the specification: the
    options are present, contain the key [wait], and [options.wait] is
    strictly the boolean [true]. *)
Definition wait_option_set (o : option (list (string * Val))) : bool :=
  match o with
  | None => false
  | Some props =>
      match lookup "wait" props with
      | Some (VBool true) => true
      | _ => false
      end
  end.

(** The element a click looks up first, if any. *)
Definition click_locator (target : ClickTarget) : option Locator :=
  match target with
  | OnXpath x => Some (ByXpath x)
  | OnSelector s => Some (ByCss s)
  | AtCursor => None
  end.

(** The arguments of the [log.error] of each [catch] block, and the
    message of the [Error] it throws; [byTime] and [byPageToComplete]
    have no [catch] block. *)
Definition error_record (c : Command) : list Val :=
  match c with
  | WaitTimed (ForElement KId x) t =>
      [VStr "Element by id %s was not located in %s ms"; VStr x;
       or_else t (VNum 6000)]
  | WaitTimed (ForElement KXpath x) t =>
      [VStr "Element by xpath %s was not located in %s ms"; VStr x;
       or_else t (VNum 6000)]
  | WaitTimed (ForElement KSelector x) t =>
      [VStr "Element by selector %s was not located in %s ms"; VStr x;
       or_else t (VNum 6000)]
  | WaitTimed (ForCondition e) t =>
      [VStr "Condition was not met"; VStr e; or_else t (VNum 6000)]
  | Click (OnXpath x) _ =>
      [VStr "Could not single click on element with xpath %s"; VStr x]
  | Click (OnSelector s) _ =>
      [VStr "Could not single click on element with selector %s"; VStr s]
  | Click AtCursor _ => [VStr "Could not perform single click"]
  | WaitByTime _ | WaitByPageToComplete => []
  end.

Definition error_message (c : Command) : option string :=
  match c with
  | WaitTimed w t => Some (timeout_message w (or_else t (VNum 6000)))
  | Click target _ => Some (click_failure_message target)
  | WaitByTime _ | WaitByPageToComplete => None
  end.

(** A [maxTime] as the waits document it: omitted, or a number (NaN
    being one). *)
Definition number_or_omitted (v : Val) : bool :=
  match v with VUndefined | VNum _ | VNaN => true | _ => false end.

(** The commands whose [maxTime], if they take one, is of that kind. *)
Definition in_scope (c : Command) : bool :=
  match c with
  | WaitTimed _ maxTime => number_or_omitted maxTime
  | WaitByTime _ | WaitByPageToComplete | Click _ _ => true
  end.

(** The failure paths of the commands, read off the answers of the
    browser and not off the commands themselves: what the driver is
    asked, in order, up to the first answer that is a rejection. *)
Section Paths.
Context {W : Type}.
Variable browser : Browser W.
Variable pageCompleteCheck : Val.

(** One call to the driver: its answer, the state it leaves and the two
    events of it. *)
Definition answer (c : Call) (st : W) : Outcome * W * list Event :=
  let '(o, st1) := browser c st in (o, st1, [EvCall c; EvSettled c o]).

(** The pointer part of a click: the click is queued on the target,
    then the action sequence is performed.  The first component is the
    reason of the first of the two that fails, if one does. *)
Definition queue_and_perform (target : option Val) (st : W)
  : option Val * W * list Event :=
  match answer (ActionsClick target) st with
  | (Rejected cause, st1, evs) => (Some cause, st1, evs)
  | (Resolved _, st1, evs) =>
      match answer ActionsPerform st1 with
      | (Rejected cause, st2, evs') => (Some cause, st2, (evs ++ evs')%list)
      | (Resolved _, st2, evs') => (None, st2, (evs ++ evs')%list)
      end
  end.

(** The click itself: the element is looked up where the click has
    one, and the click is queued on what was found and performed.  It
    goes through when the first component is [None]. *)
Definition click_steps (target : ClickTarget) (st : W)
  : option Val * W * list Event :=
  match click_locator target with
  | None => queue_and_perform None st
  | Some l =>
      match answer (FindElement l) st with
      | (Rejected cause, st1, evs) => (Some cause, st1, evs)
      | (Resolved element, st1, evs) =>
          let '(r, st2, evs') := queue_and_perform (Some element) st1 in
          (r, st2, (evs ++ evs')%list)
      end
  end.

(** How a command fails: inside its [try], with the cause that is
    caught, or by the completion predicate rejecting, with the reason it
    gives; each with the state and the events reached by then. *)
Inductive Failure : Type :=
| Caught (cause : Val) (st : W) (evs : list Event)
| Escaped (reason : Val) (st : W) (evs : list Event).

Definition completion_failure (st : W) (evs : list Event) : option Failure :=
  match answer (ExtraWait pageCompleteCheck) st with
  | (Rejected reason, st1, evs') => Some (Escaped reason st1 (evs ++ evs')%list)
  | (Resolved _, _, _) => None
  end.

(** The failure of a command started in [st], if it has one. *)
Definition failure_of (c : Command) (st : W) : option Failure :=
  match c with
  | WaitTimed w maxTime =>
      match answer (DriverWait (condition_of w) (or_else maxTime (VNum 6000)))
              st with
      | (Rejected cause, st1, evs) => Some (Caught cause st1 evs)
      | (Resolved _, _, _) => None
      end
  | WaitByTime _ => None
  | WaitByPageToComplete => completion_failure st []
  | Click target options =>
      match click_steps target st with
      | (Some cause, st1, evs) => Some (Caught cause st1 evs)
      | (None, st1, evs) =>
          if truthy options then
            match has_property "wait" options with
            | inl type_error => Some (Caught type_error st1 evs)
            | inr true =>
                if is_true (get "wait" options)
                then completion_failure st1 evs
                else None
            | inr false => None
            end
          else None
      end
  end.

End Paths.

End Commands.
Import Commands.

(* ================================================================= *)
(** ** A simulated browser session *)

Module Sim.

(** How a page script behaves when evaluated at a given time. *)
Inductive Script : Type :=
| TruthyFrom (at_ : Z) (v : Val)
| StaysFalsy
| Raises (error : Val).

(** Modelled from the spec: the Driver Handle and the Completion
    Predicate, which live outside the repository (selenium-webdriver and
    the browser session).  A page is a clock in milliseconds, the time at
    which each element becomes locatable, the behaviour of each script,
    the way the completion predicate ends, the clicks queued on the
    action sequence and the clicks already dispatched. *)
Record Page : Type := {
  now : Z;
  appears : list (Locator * Z);
  scripts : list (string * Script);
  completion : Outcome;
  queued : list (option Val);
  clicked : list (option Val)
}.

Definition locator_eqb (a b : Locator) : bool :=
  match a, b with
  | ById x, ById y | ByXpath x, ByXpath y | ByCss x, ByCss y => String.eqb x y
  | _, _ => false
  end.

Fixpoint appearance (l : Locator) (dom : list (Locator * Z)) : option Z :=
  match dom with
  | [] => None
  | (l', t) :: rest => if locator_eqb l' l then Some t else appearance l rest
  end.

Fixpoint script_named (s : string) (ss : list (string * Script)) : Script :=
  match ss with
  | [] => Raises (VError "JavascriptError" ("javascript error: " ++ s))
  | (s', b) :: rest => if String.eqb s' s then b else script_named s rest
  end.

Definition located (p : Page) (l : Locator) (t : Z) : bool :=
  match appearance l (appears p) with
  | Some a => a <=? t
  | None => false
  end.

(** One evaluation of a wait condition at time [t]. *)
Definition probe (p : Page) (c : Condition) (t : Z) : Outcome :=
  match c with
  | ElementLocated l =>
      if located p l t then Resolved (VElement 0) else Resolved VNull
  | ScriptTruthy s =>
      match script_named s (scripts p) with
      | TruthyFrom a v => if a <=? t then Resolved v else Resolved (VBool false)
      | StaysFalsy => Resolved (VBool false)
      | Raises e => Rejected e
      end
  end.

Definition poll_interval : Z := 100.

Definition timed_out (ms : Z) : Val :=
  VError "TimeoutError" ("Wait timed out after " ++ number_to_string ms ++ "ms").

(** Modelled from the spec: poll-until(predicate, timeoutMs), giving
    success or timeout.  The condition is probed every [poll_interval]
    ms from [t] on; a truthy probe ends the wait with its value, a
    raising probe with its error, and the deadline with a timeout. *)
Fixpoint poll (fuel : nat) (check : Z -> Outcome) (ms t deadline : Z)
  : Outcome * Z :=
  match check t with
  | Rejected e => (Rejected e, t)
  | Resolved v =>
      if truthy v then (Resolved v, t)
      else
        match fuel with
        | O => (Rejected (timed_out ms), Z.max t deadline)
        | S fuel' =>
            if deadline <? t + poll_interval
            then (Rejected (timed_out ms), Z.max t deadline)
            else poll fuel' check ms (t + poll_interval) deadline
        end
  end.

Definition at_time (p : Page) (t : Z) : Page :=
  {| now := t; appears := appears p; scripts := scripts p;
     completion := completion p; queued := queued p; clicked := clicked p |}.

Definition with_queue (p : Page) (q c : list (option Val)) : Page :=
  {| now := now p; appears := appears p; scripts := scripts p;
     completion := completion p; queued := q; clicked := c |}.

(** Modelled from the spec: the answers of the Driver Handle (locate one
    element or not-found, poll-until, the queued pointer-action sequence)
    and of the Completion Predicate. *)
Definition browser : Browser Page :=
  fun c p =>
    match c with
    | FindElement l =>
        if located p l (now p) then (Resolved (VElement 0), p)
        else (Rejected (VError "NoSuchElementError"
                          "no such element: Unable to locate element"), p)
    | ActionsClick target =>
        (Resolved (VObj []), with_queue p (queued p ++ [target])%list (clicked p))
    | ActionsPerform =>
        (Resolved VUndefined, with_queue p [] (clicked p ++ queued p)%list)
    | DriverWait cond (VNum ms) =>
        let '(o, t) :=
          poll (Z.to_nat (ms / poll_interval)) (probe p cond) ms
               (now p) (now p + ms) in
        (o, at_time p t)
    | DriverWait _ _ =>
        (Rejected (VError "TypeError" "timeout must be a number"), p)
    | ExtraWait _ => (completion p, p)
    end.

(** Modelled from the spec: a Driver Handle whose dispatch of the queued
    pointer actions raises; every other call is answered as by
    [browser]. *)
Definition jammed : Browser Page :=
  fun c p =>
    match c with
    | ActionsPerform =>
        (Rejected (VError "MoveTargetOutOfBoundsError"
                     "move target out of bounds"), p)
    | _ => browser c p
    end.

(** The timer of the runtime: time passes by [ms] when that is a
    positive number, and by a tick otherwise. *)
Definition timer (ms : Val) (p : Page) : Page :=
  match ms with
  | VNum n => at_time p (now p + Z.max 1 n)
  | _ => at_time p (now p + 1)
  end.

(** A page on which nothing ever appears, every script stays falsy or is
    unknown, and the completion predicate resolves. *)
Definition blank : Page :=
  {| now := 0; appears := []; scripts := [];
     completion := Resolved VUndefined; queued := []; clicked := [] |}.

(** A page in the spirit of the scenarios: [#submit] appears after 2000
    ms, [.go] and [//a] are there from the start, one script becomes
    true, one never does and one throws. *)
Definition page : Page :=
  {| now := 0;
     appears := [(ById "submit", 2000); (ByCss ".go", 0); (ByXpath "//a", 0)];
     scripts := [("return document.readyState === 'complete'",
                  TruthyFrom 0 (VBool true));
                 ("return window.never", StaysFalsy);
                 ("return window.boom()",
                  Raises (VError "JavascriptError"
                            "javascript error: window.boom is not a function"))];
     completion := Resolved VUndefined; queued := []; clicked := [] |}.

(** The same page with a completion predicate that rejects. *)
Definition unsettled : Page :=
  {| now := now page; appears := appears page; scripts := scripts page;
     completion := Rejected (VError "TimeoutError" "Running page complete check took too long");
     queued := []; clicked := [] |}.

(** A page with the one script [return window.ready], behaving as
    told. *)
Definition scripted (b : Script) : Page :=
  {| now := 0; appears := []; scripts := [("return window.ready", b)];
     completion := Resolved VUndefined; queued := []; clicked := [] |}.

(** The page-complete check handed to both classes. *)
Definition check : Val := VStr "return document.readyState === 'complete'".

End Sim.


(* ================================================================= *)
(** ** Properties *)

(** Unfolds a command down to the answers of the browser. *)
Ltac unfold_command :=
  unfold run, timed_wait, wait_by, click,
    Wait.byId, Wait.byXpath, Wait.bySelector, Wait.byCondition,
    Wait.byTime, Wait.byPageToComplete, Wait.delay,
    SingleClick.byXpath, SingleClick.bySelector, SingleClick.atCursor,
    outcome, events, final_state,
    async_fn, try_catch, call_sync, invoke, await, settle,
    log_error, log_verbose, bind, emit, ret, throw in *.

(** Splits on the next answer of the browser that the goal waits for. *)
Ltac split_answer b c st :=
  let o := fresh "o" in
  let st' := fresh "st" in
  let E := fresh "E" in
  destruct (b c st) as [o st'] eqn:E; destruct o.

Ltac next_answer :=
  match goal with
  | H : ?b ?c ?st = _ |- context [?b ?c ?st] => rewrite H
  | |- context [let '(_, _) := ?b ?c ?st in _] => split_answer b c st
  end; cbn [fst snd app].

(** The same, leaving the answer to [extraWait] alone. *)
Ltac next_click_answer :=
  match goal with
  | H : ?b ?c ?st = _ |- context [?b ?c ?st] => rewrite H
  | |- context [let '(_, _) := ?b ?c ?st in _] =>
      lazymatch c with
      | ExtraWait _ => fail
      | _ => split_answer b c st
      end
  end; cbn [fst snd app].

Section Properties.
Context {W : Type}.
Variable browser : Browser W.
Variable pageCompleteCheck : Val.
Variable timer : Val -> W -> W.

Lemma or_else_supplied (n : Z) :
  or_else (VNum n) (VNum 6000) = VNum (if n =? 0 then 6000 else n).
Proof. unfold or_else; cbn. destruct (n =? 0); reflexivity. Qed.

(** C1, as amended.  For each locator kind and each wait byId, byXpath,
    bySelector called with [(x, t)], [t] being a number or omitted: let
    the timeout in force be [t] when [t] is a number other than zero
    and NaN, and 6000 when [t] is omitted or falsy (zero, NaN).  If the
    driver's wait for the element fails within that timeout, the call
    rejects with a fresh [Error] whose message is
    "Element by <kind> <x> was not located in <timeout> ms". *)
Theorem wait_by_locator_timeout
    (k : Kind) (x : string) (t : Val) (st st' : W) (cause : Val) :
  number_or_omitted t = true ->
  let time :=
    match t with
    | VNum n => if n =? 0 then 6000 else n
    | _ => 6000
    end in
  browser (DriverWait (ElementLocated (locator k x)) (VNum time)) st
    = (Rejected cause, st') ->
  outcome (wait_by browser k x t) st
    = Rejected (new_Error ("Element by " ++ kind_name k ++ " " ++ x
                           ++ " was not located in "
                           ++ number_to_string time ++ " ms")).
Proof.
  intros Hscope time H.
  assert (Ht : or_else t (VNum 6000) = VNum time).
  { destruct t; try discriminate Hscope;
      [reflexivity | apply or_else_supplied | reflexivity]. }
  destruct k; unfold_command; rewrite Ht; cbn in H |- *;
    rewrite H; reflexivity.
Qed.

(** C3, as amended.  For byId, byXpath, bySelector and byCondition: a
    negative [maxTime] is not validated and reaches [driver.wait]
    unchanged, in the only call the command makes; a [maxTime] of zero
    does not reach it, the driver is given 6000 instead. *)
Theorem timed_wait_negative_passed_zero_defaulted
    (w : TimedWait) (n : Z) (st : W) :
  n < 0 ->
  calls (events (timed_wait browser w (VNum n)) st)
    = [DriverWait (condition_of w) (VNum n)]
  /\ calls (events (timed_wait browser w (VNum 0)) st)
    = [DriverWait (condition_of w) (VNum 6000)].
Proof.
  intros Hn.
  assert (Hneg : or_else (VNum n) (VNum 6000) = VNum n).
  { rewrite or_else_supplied. destruct (Z.eqb_spec n 0); [lia | reflexivity]. }
  split.
  - destruct w as [[| |] x | e]; unfold_command; rewrite Hneg; cbn;
      next_answer; reflexivity.
  - destruct w as [[| |] x | e]; unfold_command; cbn;
      next_answer; reflexivity.
Qed.

(** C4.  byCondition raises one and the same error in both of its
    failure cases.  Whatever makes the driver's wait on the expression
    fail, its own timeout on an expression that stayed falsy or the
    error of an expression that threw, the call rejects with the
    [Error] "Condition <expression> was not met in <timeout> ms",
    which carries the expression text and the timeout used and nothing
    of the cause. *)
Theorem byCondition_failures_conflated
    (e : string) (t : Val) (st1 st1' st2 st2' : W) (cause1 cause2 : Val) :
  let time := or_else t (VNum 6000) in
  browser (DriverWait (ScriptTruthy ("return " ++ e)) time) st1
    = (Rejected cause1, st1') ->
  browser (DriverWait (ScriptTruthy ("return " ++ e)) time) st2
    = (Rejected cause2, st2') ->
  outcome (Wait.byCondition browser e t) st1
    = Rejected (new_Error ("Condition " ++ e ++ " was not met in "
                           ++ to_string time ++ " ms"))
  /\ outcome (Wait.byCondition browser e t) st2
    = outcome (Wait.byCondition browser e t) st1.
Proof.
  intros time H1 H2. subst time.
  unfold_command. cbn in *. rewrite H1, H2. split; reflexivity.
Qed.

(** C5.  clickBySelector(selector, {wait: true}) when no element
    matches the selector: the call rejects with the [Error] "Could not
    single click on element with selector <selector>", and the only
    call it has made is the lookup; the settle-wait is never invoked. *)
Theorem click_by_selector_missing
    (selector : string) (st st' : W) (cause : Val) :
  browser (FindElement (ByCss selector)) st = (Rejected cause, st') ->
  outcome (SingleClick.bySelector browser pageCompleteCheck selector
             wait_true) st
    = Rejected (new_Error
                  ("Could not single click on element with selector "
                   ++ selector))
  /\ calls (events (SingleClick.bySelector browser pageCompleteCheck
                      selector wait_true) st)
    = [FindElement (ByCss selector)]
  /\ forall check,
       ~ In (EvCall (ExtraWait check))
            (events (SingleClick.bySelector browser pageCompleteCheck
                       selector wait_true) st).
Proof.
  intros H. unfold_command. cbn. rewrite H. cbn.
  repeat split. intros check [F | [F | [F | [F | []]]]]; discriminate.
Qed.

(** C8.  byTime(ms) never raises: whatever [ms] is, it is handed as it
    is to the timer and the call resolves (with no value) once the
    timer has fired. *)
Theorem byTime_always_resolves (ms : Val) (st : W) :
  outcome (Wait.byTime timer ms) st = Resolved VUndefined
  /\ events (Wait.byTime timer ms) st = [EvSetTimeout ms; EvTimerFired ms].
Proof. split; reflexivity. Qed.

(** C9.  byPageToComplete() is exactly the completion-predicate wait:
    it makes the one call [browser.extraWait(pageCompleteCheck)], ends
    the way that call ends, in the state that call leaves, and arms no
    timer and passes no timeout of its own. *)
Theorem byPageToComplete_is_extraWait (st : W) :
  let answer := browser (ExtraWait pageCompleteCheck) st in
  outcome (Wait.byPageToComplete browser pageCompleteCheck) st = fst answer
  /\ final_state (Wait.byPageToComplete browser pageCompleteCheck) st
     = snd answer
  /\ events (Wait.byPageToComplete browser pageCompleteCheck) st
     = [EvCall (ExtraWait pageCompleteCheck);
        EvSettled (ExtraWait pageCompleteCheck) (fst answer)].
Proof.
  intros answer. subst answer. unfold_command. cbn.
  destruct (browser (ExtraWait pageCompleteCheck) st) as [[v | e] st1];
    repeat split.
Qed.

(** C10.  For each click operation called with {wait: true}: when the
    click itself goes through (the same call without options resolves)
    and the settle-wait then rejects, that rejection reaches the caller
    unchanged.  The run is the run of the click followed by the call
    and the rejection of [extraWait]; nothing is logged and no [Error]
    of the click is made from it. *)
Theorem settle_wait_rejection_propagates
    (target : ClickTarget) (st st1 st2 : W) (v reason : Val)
    (evs : list Event) :
  click browser pageCompleteCheck target VUndefined st = (Ok v, st1, evs) ->
  browser (ExtraWait pageCompleteCheck) st1 = (Rejected reason, st2) ->
  outcome (click browser pageCompleteCheck target wait_true) st
    = Rejected reason
  /\ events (click browser pageCompleteCheck target wait_true) st
    = (evs ++ [EvCall (ExtraWait pageCompleteCheck);
               EvSettled (ExtraWait pageCompleteCheck) (Rejected reason)])%list
  /\ logs (events (click browser pageCompleteCheck target wait_true) st)
    = [].
Proof.
  intros Hclick Hwait. revert Hclick.
  destruct target; unfold_command; cbn;
    repeat next_click_answer; intros Hclick; try discriminate;
    inversion Hclick; subst; rewrite Hwait; cbn; repeat split.
Qed.

Lemma wait_requested_record (o : option (list (string * Val))) :
  @SingleClick.wait_requested W (options_arg o) = ret (wait_option_set o).
Proof.
  destruct o as [props |]; [| reflexivity].
  unfold SingleClick.wait_requested; cbn.
  destruct (lookup "wait" props) as [[| | [|] | | | | | |] |]; reflexivity.
Qed.

Lemma wait_requested_cases (options : Val) :
  (exists cause, has_property "wait" options = inl cause
                 /\ @SingleClick.wait_requested W options = throw cause)
  \/ (exists b, @SingleClick.wait_requested W options = ret b).
Proof.
  unfold SingleClick.wait_requested.
  destruct (truthy options); [| right; eexists; reflexivity].
  destruct (has_property "wait" options) as [cause | [|]].
  - left. exists cause. split; reflexivity.
  - right. eexists; reflexivity.
  - right. eexists; reflexivity.
Qed.

(** Only the [wait] key of an options record is read, and only its
    being strictly [true] matters: the run is that of {wait: true} or
    that of no options at all. *)
Lemma click_reads_only_wait
    (target : ClickTarget) (o : option (list (string * Val))) :
  click browser pageCompleteCheck target (options_arg o)
  = click browser pageCompleteCheck target
      (if wait_option_set o then wait_true else VUndefined).
Proof.
  assert (Ht : @SingleClick.wait_requested W wait_true = ret true)
    by reflexivity.
  assert (Hu : @SingleClick.wait_requested W VUndefined = ret false)
    by reflexivity.
  destruct target;
    unfold click, SingleClick.byXpath, SingleClick.bySelector,
      SingleClick.atCursor;
    rewrite wait_requested_record;
    destruct (wait_option_set o); rewrite ?Ht, ?Hu; reflexivity.
Qed.

Lemma click_steps_wait_true
    (target : ClickTarget) (st st1 : W) (evs : list Event) :
  click_steps browser target st = (None, st1, evs) ->
  click browser pageCompleteCheck target VUndefined st
    = (Ok VUndefined, st1, evs)
  /\ click browser pageCompleteCheck target wait_true st
    = (let '(a, st2, evs') :=
         answer browser (ExtraWait pageCompleteCheck) st1 in
       (match a with Resolved v => Ok v | Rejected e => Throw e end,
        st2, (evs ++ evs')%list))
  /\ ~ In (EvCall (ExtraWait pageCompleteCheck)) evs.
Proof.
  clear timer.
  destruct target; unfold click_steps, queue_and_perform, answer;
    unfold_command; cbn; repeat next_click_answer;
    intros H; inversion H; subst; clear H;
    (split; [reflexivity | split;
       [ next_answer; reflexivity
       | intros F; cbn in F;
         repeat (destruct F as [F | F]; [discriminate |]); exact F ]]).
Qed.

(** C7, as amended.  For each click operation and each options argument
    that is omitted or a record, when the click itself goes through
    (the lookup, where the click has one, the queued click and the
    dispatch of the action sequence all resolve): the call without
    options is that click and nothing more; the settle-wait is
    performed exactly when the options are present, contain the key
    [wait] and [options.wait] is strictly [true], and then it is the one
    call of [extraWait], made after the click in the state the click
    left, whose answer is the call's; in every other case (other keys,
    any other value of [wait], truthy ones included) the run is
    identical to that of the call without options. *)
Theorem click_options_recognition
    (target : ClickTarget) (o : option (list (string * Val)))
    (st st1 : W) (evs : list Event) :
  click_steps browser target st = (None, st1, evs) ->
  click browser pageCompleteCheck target VUndefined st
    = (Ok VUndefined, st1, evs)
  /\ (In (EvCall (ExtraWait pageCompleteCheck))
         (events (click browser pageCompleteCheck target (options_arg o)) st)
      <-> wait_option_set o = true)
  /\ (wait_option_set o = true ->
      click browser pageCompleteCheck target (options_arg o) st
      = (let '(a, st2, evs') :=
           answer browser (ExtraWait pageCompleteCheck) st1 in
         (match a with Resolved v => Ok v | Rejected e => Throw e end,
          st2, (evs ++ evs')%list)))
  /\ (wait_option_set o = false ->
      click browser pageCompleteCheck target (options_arg o) st
      = click browser pageCompleteCheck target VUndefined st).
Proof.
  intros H.
  destruct (click_steps_wait_true target st st1 evs H) as (Hu & Ht & Hno).
  rewrite click_reads_only_wait.
  split; [exact Hu |].
  destruct (wait_option_set o).
  - split; [| split; [intros _; exact Ht | discriminate]].
    split; [reflexivity | intros _].
    unfold events. rewrite Ht. unfold answer.
    destruct (browser (ExtraWait pageCompleteCheck) st1) as [a st2].
    cbn. apply in_or_app. right. left. reflexivity.
  - split; [| split; [discriminate | reflexivity]].
    split; [| discriminate].
    unfold events. rewrite Hu. cbn. intros F. elim (Hno F).
Qed.

(** C6, as amended.  For every operation of Wait and SingleClick, the
    [maxTime] of a timed wait being a number or omitted, and every way
    the operation can fail.  When a call to the driver inside the
    operation's [try] is rejected (the driver's wait of byId, byXpath,
    bySelector or byCondition; the lookup, the queued click or the
    dispatch of a click), or the test of a click's options throws after
    the click went through, the operation logs exactly two records
    after it, its summary at error severity and then the caught cause
    at verbose severity, and rejects with its fresh [Error]; the failure
    is never swallowed.  When it is the completion predicate that
    rejects (byPageToComplete, or the settle-wait of a click), nothing
    is logged and the caller gets that rejection itself.  An operation
    with no such failure resolves; byTime has none. *)
Theorem failure_paths (c : Command) (st : W) :
  in_scope c = true ->
  match failure_of browser pageCompleteCheck c st with
  | Some (Caught cause st1 evs) =>
      exists message,
        error_message c = Some message
        /\ run browser pageCompleteCheck timer c st
          = (Throw (new_Error message), st1,
             (evs ++ [EvLog LvError (error_record c);
                      EvLog LvVerbose [cause]])%list)
        /\ logs evs = []
  | Some (Escaped reason st1 evs) =>
      run browser pageCompleteCheck timer c st = (Throw reason, st1, evs)
      /\ logs evs = []
  | None =>
      exists v, outcome (run browser pageCompleteCheck timer c) st = Resolved v
  end.
Proof.
  intros _.
  destruct c as [w maxTime | ms | | target options].
  - unfold failure_of, answer.
    destruct w as [[| |] x | e]; unfold_command; cbn;
      next_answer; eexists; repeat split.
  - cbn. eexists; reflexivity.
  - unfold failure_of, completion_failure, answer. unfold_command; cbn.
    next_answer; [eexists; reflexivity | split; reflexivity].
  - unfold failure_of, completion_failure, click_steps, queue_and_perform,
      answer.
    destruct target; unfold run, click, click_locator, SingleClick.byXpath,
      SingleClick.bySelector, SingleClick.atCursor,
      SingleClick.wait_requested;
      destruct (truthy options);
      destruct (has_property "wait" options) as [type_error | [|]];
      destruct (is_true (get "wait" options));
      unfold_command; cbn; repeat next_answer;
      first [ eexists; repeat split | split; reflexivity ].
Qed.

(** C2.  For clickByXpath and clickBySelector.  Called with
    {wait: true}, the call resolves exactly when the click completes
    and the completion predicate, called after it, resolves; its value
    is the predicate's, and the run ends with the click having
    performed, then the call of [extraWait], then its resolution.
    Called with {wait: false} or without options, the call resolves
    exactly when the click completes, with no value, the click having
    performed being the last thing that happens, and [extraWait] is
    never called. *)
Theorem click_resolution (target : ClickTarget) (l : Locator) (st : W) :
  click_locator target = Some l ->
  (forall v,
      outcome (click browser pageCompleteCheck target wait_true) st
      = Resolved v
      <-> exists st3 st4,
           click_completes browser l st st3
           /\ browser (ExtraWait pageCompleteCheck) st3 = (Resolved v, st4))
  /\ (forall v,
        outcome (click browser pageCompleteCheck target wait_true) st
        = Resolved v ->
        exists pre done,
          events (click browser pageCompleteCheck target wait_true) st
          = (pre ++ [EvSettled ActionsPerform (Resolved done);
                     EvCall (ExtraWait pageCompleteCheck);
                     EvSettled (ExtraWait pageCompleteCheck) (Resolved v)])%list)
  /\ (forall options,
        options = VUndefined \/ options = wait_false ->
        (forall v,
            outcome (click browser pageCompleteCheck target options) st
            = Resolved v
            <-> v = VUndefined /\ exists st3, click_completes browser l st st3)
        /\ (forall v,
              outcome (click browser pageCompleteCheck target options) st
              = Resolved v ->
              exists pre done,
                events (click browser pageCompleteCheck target options) st
                = (pre ++ [EvSettled ActionsPerform (Resolved done)])%list)
        /\ (forall check,
              ~ In (ExtraWait check)
                  (calls (events (click browser pageCompleteCheck target
                                    options) st)))).
Proof.
  clear timer. intros Hl.
  assert (Hf : @SingleClick.wait_requested W wait_false = ret false)
    by reflexivity.
  assert (Hu : @SingleClick.wait_requested W VUndefined = ret false)
    by reflexivity.
  unfold click_completes.
  destruct target as [x | x |]; inversion Hl; subst; clear Hl.
  all: split; [| split].
  (* wait: true, when it resolves *)
  1, 4: intros v; split;
    [ unfold_command; cbn; repeat next_answer; intros H;
      inversion H; subst; eexists; eexists;
      (split; [do 5 eexists; repeat split; eassumption | eassumption])
    | intros (st3 & st4 & (el & st1 & a & st2 & d & H1 & H2 & H3) & H4);
      unfold_command; cbn; rewrite H1; cbn; rewrite H2; cbn;
      rewrite H3; cbn; rewrite H4; reflexivity ].
  (* wait: true, the order of events *)
  1, 3: intros v; unfold_command; cbn; repeat next_answer; intros H;
    inversion H; subst;
    eexists [_; _; _; _; _], _; reflexivity.
  (* wait: false, or no options *)
  all: intros options Ho;
    assert (Hn : @SingleClick.wait_requested W options = ret false)
      by (destruct Ho; subst; assumption);
    unfold click, SingleClick.byXpath, SingleClick.bySelector;
    rewrite Hn; clear Ho Hn; split; [| split].
  1, 4: intros v; split;
    [ unfold_command; cbn; repeat next_answer; intros H;
      inversion H; subst; split; [reflexivity |];
      do 6 eexists; repeat split; eassumption
    | intros (-> & st3 & (el & st1 & a & st2 & d & H1 & H2 & H3));
      unfold_command; cbn; rewrite H1; cbn; rewrite H2; cbn;
      rewrite H3; reflexivity ].
  1, 3: intros v; unfold_command; cbn; repeat next_answer; intros H;
    inversion H; subst;
    eexists [_; _; _; _; _], _; reflexivity.
  all: intros check; unfold_command; cbn; repeat next_answer;
    cbn; intuition discriminate.
Qed.

End Properties.

(* ================================================================= *)
(** ** The properties on the simulated session *)

(** byId("submit", 500) on the page where [#submit] appears after 2000
    ms: the driver times out and the error cites the id and 500.  On the
    page where it never appears, byId("submit", NaN) waits the default
    and cites 6000. *)
Lemma wait_by_locator_timeout_witness :
  Sim.browser (DriverWait (ElementLocated (ById "submit")) (VNum 500)) Sim.page
    = (Rejected (Sim.timed_out 500), Sim.at_time Sim.page 500)
  /\ outcome (Wait.byId Sim.browser "submit" (VNum 500)) Sim.page
    = Rejected (new_Error "Element by id submit was not located in 500 ms")
  /\ outcome (Wait.byId Sim.browser "submit" VNaN) Sim.blank
    = Rejected (new_Error "Element by id submit was not located in 6000 ms").
Proof.
  split; [vm_compute; reflexivity |].
  split.
  - apply (wait_by_locator_timeout Sim.browser KId "submit" (VNum 500)
             Sim.page (Sim.at_time Sim.page 500) (Sim.timed_out 500) eq_refl).
    vm_compute; reflexivity.
  - apply (wait_by_locator_timeout Sim.browser KId "submit" VNaN
             Sim.blank (Sim.at_time Sim.blank 6000) (Sim.timed_out 6000)
             eq_refl).
    vm_compute; reflexivity.
Defined.

(** C1 fails as stated at [t = 0]: on a page where no element is ever
    locatable, byId("submit", 0) rejects with a recorded timeout of 6000,
    not of 0. *)
Lemma wait_by_id_zero_records_6000 :
  Sim.appears Sim.blank = []
  /\ outcome (Wait.byId Sim.browser "submit" (VNum 0)) Sim.blank
    = Rejected (new_Error "Element by id submit was not located in 6000 ms")
  /\ outcome (Wait.byId Sim.browser "submit" (VNum 0)) Sim.blank
    <> Rejected (new_Error "Element by id submit was not located in 0 ms").
Proof.
  split; [reflexivity |].
  split; [vm_compute; reflexivity | vm_compute; discriminate].
Defined.

(** bySelector(".go", -5): the driver is asked to wait -5 ms. *)
Lemma timed_wait_negative_passed_witness :
  calls (events (Wait.bySelector Sim.browser ".go" (VNum (-5))) Sim.page)
    = [DriverWait (ElementLocated (ByCss ".go")) (VNum (-5))].
Proof.
  apply (proj1 (timed_wait_negative_passed_zero_defaulted Sim.browser
                  (ForElement KSelector ".go") (-5) Sim.page ltac:(lia))).
Defined.

(** C3 fails as stated at zero: byId("submit", 0) asks the driver to
    wait 6000 ms, and never 0 ms. *)
Lemma byId_zero_max_time_replaced :
  calls (events (Wait.byId Sim.browser "submit" (VNum 0)) Sim.page)
    = [DriverWait (ElementLocated (ById "submit")) (VNum 6000)]
  /\ ~ In (DriverWait (ElementLocated (ById "submit")) (VNum 0))
          (calls (events (Wait.byId Sim.browser "submit" (VNum 0)) Sim.page)).
Proof.
  split; [vm_compute; reflexivity |].
  vm_compute. intros [F | []]; discriminate.
Defined.

(** byCondition("window.ready", 300) on a page where the script stays
    falsy and on a page where it throws: the driver fails with a timeout
    on the first and with the script's error on the second, and the call
    rejects with the same error on both. *)
Lemma byCondition_failures_conflated_witness :
  fst (Sim.browser (DriverWait (ScriptTruthy "return window.ready") (VNum 300))
         (Sim.scripted Sim.StaysFalsy))
    = Rejected (Sim.timed_out 300)
  /\ fst (Sim.browser (DriverWait (ScriptTruthy "return window.ready") (VNum 300))
            (Sim.scripted (Sim.Raises (VError "JavascriptError" "ready is gone"))))
    = Rejected (VError "JavascriptError" "ready is gone")
  /\ outcome (Wait.byCondition Sim.browser "window.ready" (VNum 300))
        (Sim.scripted Sim.StaysFalsy)
    = Rejected (new_Error "Condition window.ready was not met in 300 ms")
  /\ outcome (Wait.byCondition Sim.browser "window.ready" (VNum 300))
        (Sim.scripted (Sim.Raises (VError "JavascriptError" "ready is gone")))
    = outcome (Wait.byCondition Sim.browser "window.ready" (VNum 300))
        (Sim.scripted Sim.StaysFalsy).
Proof.
  split; [vm_compute; reflexivity |].
  split; [vm_compute; reflexivity |].
  eapply (byCondition_failures_conflated Sim.browser "window.ready" (VNum 300)
            (Sim.scripted Sim.StaysFalsy) _
            (Sim.scripted (Sim.Raises (VError "JavascriptError" "ready is gone")))
            _ (Sim.timed_out 300) (VError "JavascriptError" "ready is gone"));
    vm_compute; reflexivity.
Defined.

(** clickBySelector(".missing", {wait: true}) on a page without it. *)
Lemma click_by_selector_missing_witness :
  outcome (SingleClick.bySelector Sim.browser Sim.check ".missing" wait_true)
    Sim.page
    = Rejected (new_Error
                  "Could not single click on element with selector .missing")
  /\ calls (events (SingleClick.bySelector Sim.browser Sim.check ".missing"
                      wait_true) Sim.page)
    = [FindElement (ByCss ".missing")].
Proof.
  pose proof (click_by_selector_missing Sim.browser Sim.check ".missing"
                Sim.page Sim.page
                (VError "NoSuchElementError"
                   "no such element: Unable to locate element")
                eq_refl) as H.
  split; [exact (proj1 H) | exact (proj1 (proj2 H))].
Defined.

(** C7 fails as stated when the click itself fails:
    clickBySelector(".missing", {wait: true}) has its options present,
    with the key [wait] strictly [true], and performs no settle-wait. *)
Lemma click_missing_performs_no_settle_wait :
  wait_option_set (Some [("wait", VBool true)]) = true
  /\ ~ In (EvCall (ExtraWait Sim.check))
          (events (click Sim.browser Sim.check (OnSelector ".missing")
                     (options_arg (Some [("wait", VBool true)]))) Sim.page).
Proof.
  split; [reflexivity |].
  vm_compute. intros F.
  repeat (destruct F as [F | F]; [discriminate |]). exact F.
Defined.

(** clickAtCursor({wait: "true", retries: 3}) on the page: the click
    goes through, the string is not the boolean, and the run is that of
    the call without options. *)
Lemma click_options_recognition_witness :
  click_steps Sim.browser AtCursor Sim.page
    = (None, Sim.with_queue Sim.page [] [None],
       [EvCall (ActionsClick None);
        EvSettled (ActionsClick None) (Resolved (VObj []));
        EvCall ActionsPerform;
        EvSettled ActionsPerform (Resolved VUndefined)])
  /\ click Sim.browser Sim.check AtCursor
       (VObj [("wait", VStr "true"); ("retries", VNum 3)]) Sim.page
    = click Sim.browser Sim.check AtCursor VUndefined Sim.page.
Proof.
  split; [vm_compute; reflexivity |].
  refine (proj2 (proj2 (proj2
            (click_options_recognition Sim.browser Sim.check AtCursor
               (Some [("wait", VStr "true"); ("retries", VNum 3)])
               Sim.page _ _ _))) eq_refl).
  vm_compute; reflexivity.
Defined.

(** clickBySelector(".go", {wait: true}) on the page where [.go] is
    there: it resolves, after the click has performed and [extraWait]
    has resolved. *)
Lemma click_resolution_witness :
  click_locator (OnSelector ".go") = Some (ByCss ".go")
  /\ outcome (click Sim.browser Sim.check (OnSelector ".go") wait_true) Sim.page
    = Resolved VUndefined
  /\ exists pre done,
      events (click Sim.browser Sim.check (OnSelector ".go") wait_true) Sim.page
      = (pre ++ [EvSettled ActionsPerform (Resolved done);
                 EvCall (ExtraWait Sim.check);
                 EvSettled (ExtraWait Sim.check) (Resolved VUndefined)])%list.
Proof.
  split; [reflexivity |].
  split; [vm_compute; reflexivity |].
  apply (proj1 (proj2 (click_resolution Sim.browser Sim.check
                         (OnSelector ".go") (ByCss ".go") Sim.page eq_refl))).
  vm_compute; reflexivity.
Defined.

(** clickAtCursor({wait: true}) on a session whose dispatch of the
    pointer actions raises: the click is queued, the dispatch is
    rejected, the two records are logged with that rejection as the
    cause, and the call rejects with the error of the operation. *)
Lemma failure_paths_witness :
  SingleClick.atCursor Sim.jammed Sim.check wait_true Sim.page
  = (Throw (new_Error "Could not perform single click"),
     Sim.with_queue Sim.page [None] [],
     [EvCall (ActionsClick None);
      EvSettled (ActionsClick None) (Resolved (VObj []));
      EvCall ActionsPerform;
      EvSettled ActionsPerform
        (Rejected (VError "MoveTargetOutOfBoundsError"
                     "move target out of bounds"));
      EvLog LvError [VStr "Could not perform single click"];
      EvLog LvVerbose [VError "MoveTargetOutOfBoundsError"
                         "move target out of bounds"]]).
Proof.
  pose proof (failure_paths Sim.jammed Sim.check Sim.timer
                (Click AtCursor wait_true) Sim.page eq_refl) as H.
  cbv in H. destruct H as (message & Hm & Hrun & _).
  injection Hm as <-. exact Hrun.
Defined.

(** C6 fails as stated on byPageToComplete: when the completion
    predicate rejects, the call rejects with that very rejection, which
    is no fresh [Error], and nothing is logged. *)
Lemma byPageToComplete_failure_unlogged :
  outcome (Wait.byPageToComplete Sim.browser Sim.check) Sim.unsettled
    = Rejected (VError "TimeoutError" "Running page complete check took too long")
  /\ logs (events (Wait.byPageToComplete Sim.browser Sim.check) Sim.unsettled)
    = []
  /\ forall message,
      outcome (Wait.byPageToComplete Sim.browser Sim.check) Sim.unsettled
      <> Rejected (new_Error message).
Proof.
  split; [vm_compute; reflexivity |].
  split; [vm_compute; reflexivity |].
  intros message. vm_compute. discriminate.
Defined.

(** clickBySelector(".go", {wait: true}) on the page whose completion
    predicate rejects: the click goes through and the rejection of the
    predicate is what the caller gets. *)
Lemma settle_wait_rejection_propagates_witness :
  outcome (click Sim.browser Sim.check (OnSelector ".go") VUndefined)
    Sim.unsettled = Resolved VUndefined
  /\ outcome (click Sim.browser Sim.check (OnSelector ".go") wait_true)
       Sim.unsettled
    = Rejected (VError "TimeoutError" "Running page complete check took too long")
  /\ logs (events (click Sim.browser Sim.check (OnSelector ".go") wait_true)
             Sim.unsettled) = [].
Proof.
  split; [vm_compute; reflexivity |].
  pose proof (settle_wait_rejection_propagates Sim.browser Sim.check
                (OnSelector ".go") Sim.unsettled _ _ _ _ _
                eq_refl eq_refl) as H.
  split; [exact (proj1 H) | exact (proj2 (proj2 H))].
Defined.

(* ================================================================= *)
(** ** Further properties of the waits *)

Section WaitRuns.
Context {W : Type}.
Variable browser : Browser W.

(** X1.  A timed wait (byId, byXpath, bySelector, byCondition) whose
    driver wait resolves: the call resolves with no value, whatever the
    driver resolved with (the element, the value of the condition); the
    run is the one call and its settlement, nothing is logged, and the
    driver is left as its wait left it. *)
Theorem timed_wait_success_run
    (w : TimedWait) (maxTime : Val) (st st1 : W) (v : Val) :
  browser (DriverWait (condition_of w) (or_else maxTime (VNum 6000))) st
    = (Resolved v, st1) ->
  timed_wait browser w maxTime st
  = (Ok VUndefined, st1,
     [EvCall (DriverWait (condition_of w) (or_else maxTime (VNum 6000)));
      EvSettled (DriverWait (condition_of w) (or_else maxTime (VNum 6000)))
        (Resolved v)]).
Proof.
  intros H.
  destruct w as [[| |] x | e]; unfold_command; cbn in *; rewrite H;
    reflexivity.
Qed.

(** X2.  A timed wait, with a [maxTime] that is a number or omitted,
    whose driver wait rejects, in full: the call, its rejection, the
    error record of the operation, the verbose record holding exactly
    the reason the driver gave, and then the fresh [Error]; the driver
    is left as its wait left it. *)
Theorem timed_wait_failure_run
    (w : TimedWait) (maxTime : Val) (st st1 : W) (cause : Val) :
  number_or_omitted maxTime = true ->
  browser (DriverWait (condition_of w) (or_else maxTime (VNum 6000))) st
    = (Rejected cause, st1) ->
  timed_wait browser w maxTime st
  = (Throw (new_Error (timeout_message w (or_else maxTime (VNum 6000)))), st1,
     [EvCall (DriverWait (condition_of w) (or_else maxTime (VNum 6000)));
      EvSettled (DriverWait (condition_of w) (or_else maxTime (VNum 6000)))
        (Rejected cause);
      EvLog LvError (error_record (WaitTimed w maxTime));
      EvLog LvVerbose [cause]]).
Proof.
  intros _ H.
  destruct w as [[| |] x | e]; unfold_command; cbn in *; rewrite H;
    reflexivity.
Qed.

(** X3.  A timed wait never retries and never touches anything else:
    whatever [maxTime] is and however the driver answers, the one call
    of the run is [driver.wait] on the operation's condition with
    [maxTime || 6000], and the run ends in the state that call left. *)
Theorem timed_wait_single_call (w : TimedWait) (maxTime : Val) (st : W) :
  calls (events (timed_wait browser w maxTime) st)
    = [DriverWait (condition_of w) (or_else maxTime (VNum 6000))]
  /\ final_state (timed_wait browser w maxTime) st
    = snd (browser (DriverWait (condition_of w)
                      (or_else maxTime (VNum 6000))) st).
Proof.
  destruct w as [[| |] x | e]; unfold_command; cbn;
    next_answer; split; reflexivity.
Qed.

(** X4.  Every falsy [maxTime] is the default: a timed wait called with
    [null], [false], [0], [NaN] or the empty string is the same run as
    the call with 6000 and as the call with no [maxTime]. *)
Theorem timed_wait_falsy_is_default (w : TimedWait) (maxTime : Val) :
  truthy maxTime = false ->
  timed_wait browser w maxTime = timed_wait browser w (VNum 6000)
  /\ timed_wait browser w maxTime = timed_wait browser w VUndefined.
Proof.
  intros H.
  assert (E : or_else maxTime (VNum 6000) = VNum 6000)
    by (unfold or_else; rewrite H; reflexivity).
  destruct w as [[| |] x | e];
    unfold timed_wait, wait_by, Wait.byId, Wait.byXpath, Wait.bySelector,
      Wait.byCondition;
    cbv zeta; rewrite E; split; reflexivity.
Qed.

End WaitRuns.

(* ================================================================= *)
(** ** Reading the timeout back from the error *)

Lemma append_cancel_l (p a b : string) : p ++ a = p ++ b -> a = b.
Proof.
  induction p as [| c p IH]; cbn; [trivial |].
  intros H. inversion H. auto.
Qed.

Lemma append_length (a b : string) :
  String.length (a ++ b) = (String.length a + String.length b)%nat.
Proof. induction a as [| c a IH]; cbn; [reflexivity | now rewrite IH]. Qed.

Lemma append_cancel_r (a b t : string) : a ++ t = b ++ t -> a = b.
Proof.
  revert b. induction a as [| c a IH]; intros [| d b] H; cbn in H.
  - reflexivity.
  - apply (f_equal String.length) in H. cbn in H.
    rewrite append_length in H. lia.
  - apply (f_equal String.length) in H. cbn in H.
    rewrite append_length in H. lia.
  - inversion H. f_equal. auto.
Qed.

Lemma number_to_string_inj (n m : Z) :
  number_to_string n = number_to_string m -> n = m.
Proof.
  unfold number_to_string. intros H.
  assert (N : forall z, NilZero.int_of_string
                          (NilZero.string_of_int (Z.to_int z))
                        = Some (Z.to_int z)).
  { intros z. apply NilZero.isi; destruct z; cbn; try discriminate;
      intros E; inversion E as [E'];
      exact (DecimalPos.Unsigned.to_uint_nonnil _ E'). }
  apply DecimalZ.to_int_inj.
  pose proof (N n) as Hn. rewrite H, N in Hn. now inversion Hn.
Qed.

Lemma timeout_message_inj (w : TimedWait) (n m : Z) :
  timeout_message w (VNum n) = timeout_message w (VNum m) -> n = m.
Proof.
  destruct w as [k x | e]; unfold timeout_message, to_string; intros H.
  - repeat (apply append_cancel_l in H).
    apply append_cancel_r in H. now apply number_to_string_inj.
  - repeat (apply append_cancel_l in H).
    apply append_cancel_r in H. now apply number_to_string_inj.
Qed.

Section ReadBack.
Context {W : Type}.
Variable browser : Browser W.

(** Whatever makes a timed wait reject, the reason the caller gets is
    the operation's own [Error]. *)
Lemma timed_wait_rejection
    (w : TimedWait) (maxTime : Val) (st : W) (reason : Val) :
  number_or_omitted maxTime = true ->
  outcome (timed_wait browser w maxTime) st = Rejected reason ->
  reason = new_Error (timeout_message w (or_else maxTime (VNum 6000))).
Proof.
  intros _.
  destruct w as [[| |] x | e]; unfold_command; cbn;
    next_answer; intros H; inversion H; reflexivity.
Qed.

(** X5.  The error of a timed wait tells its timeout: two failing calls
    of the same wait, with non-zero whole numbers of milliseconds [n]
    and [m] below 2^53 in magnitude (the range in which every integer
    is a number and prints as its digits), that reject with the same
    error were given the same timeout.  (Zero is left out because it
    shares the 6000 of the default.) *)
Theorem timed_wait_error_tells_timeout
    (w : TimedWait) (n m : Z) (st st' : W) (reason : Val) :
  n <> 0 -> m <> 0 ->
  Z.abs n < 2 ^ 53 -> Z.abs m < 2 ^ 53 ->
  outcome (timed_wait browser w (VNum n)) st = Rejected reason ->
  outcome (timed_wait browser w (VNum m)) st' = Rejected reason ->
  n = m.
Proof.
  intros Hn Hm _ _ H1 H2.
  assert (En : or_else (VNum n) (VNum 6000) = VNum n).
  { rewrite or_else_supplied. destruct (Z.eqb_spec n 0); congruence. }
  assert (Em : or_else (VNum m) (VNum 6000) = VNum m).
  { rewrite or_else_supplied. destruct (Z.eqb_spec m 0); congruence. }
  assert (R : forall k s,
             outcome (timed_wait browser w (VNum k)) s = Rejected reason ->
             or_else (VNum k) (VNum 6000) = VNum k ->
             reason = new_Error (timeout_message w (VNum k))).
  { intros k s H E. rewrite <- E.
    exact (timed_wait_rejection w (VNum k) s reason eq_refl H). }
  pose proof (R n st H1 En) as Rn. pose proof (R m st' H2 Em) as Rm.
  rewrite Rn in Rm. unfold new_Error in Rm. inversion Rm as [Hmsg].
  exact (timeout_message_inj w n m Hmsg).
Qed.

End ReadBack.

(* ================================================================= *)
(** ** Further properties of the clicks *)

Section ClickRuns.
Context {W : Type}.
Variable browser : Browser W.
Variable pageCompleteCheck : Val.

(** X6.  A click with {wait: true} is the click without options followed
    by byPageToComplete: if the plain click rejects, that is the whole
    run; if it resolves, the run goes on with the run of
    byPageToComplete from the state the click left, and ends as that
    ends. *)
Theorem click_with_wait_is_click_then_page_complete
    (target : ClickTarget) (st : W) :
  click browser pageCompleteCheck target wait_true st
  = match click browser pageCompleteCheck target VUndefined st with
    | (Ok _, st1, evs) =>
        let '(r, st2, evs') :=
          Wait.byPageToComplete browser pageCompleteCheck st1 in
        (r, st2, (evs ++ evs')%list)
    | failed => failed
    end.
Proof.
  destruct target; unfold_command; cbn; repeat next_click_answer;
    try reflexivity; next_answer; reflexivity.
Qed.

(** X7.  Falsy options are no options: a click called with [null],
    [false], [0], [NaN] or the empty string for [options] is the same
    run as the call without options. *)
Theorem click_falsy_options_ignored (target : ClickTarget) (options : Val) :
  truthy options = false ->
  click browser pageCompleteCheck target options
  = click browser pageCompleteCheck target VUndefined.
Proof.
  intros H.
  assert (E : @SingleClick.wait_requested W options = ret false)
    by (unfold SingleClick.wait_requested; rewrite H; reflexivity).
  assert (U : @SingleClick.wait_requested W VUndefined = ret false)
    by reflexivity.
  destruct target;
    unfold click, SingleClick.byXpath, SingleClick.bySelector,
      SingleClick.atCursor;
    rewrite E, U; reflexivity.
Qed.

(** X8.  Truthy options that are not an object ([true], a non-zero
    number, a non-empty string) make a click that went through fail: the
    click is looked up, queued and performed as without options, then
    the ['wait' in options] test throws a TypeError inside the [try],
    which is logged as the cause, and the call rejects with the
    operation's "Could not ... click" error.  [extraWait] is not
    called. *)
Theorem click_primitive_options_fail_after_click
    (target : ClickTarget) (options cause v : Val) (st st1 : W)
    (evs : list Event) :
  truthy options = true ->
  has_property "wait" options = inl cause ->
  click browser pageCompleteCheck target VUndefined st = (Ok v, st1, evs) ->
  click browser pageCompleteCheck target options st
  = (Throw (new_Error (click_failure_message target)), st1,
     (evs ++ [EvLog LvError (error_record (Click target options));
              EvLog LvVerbose [cause]])%list).
Proof.
  intros Ht Hp Hclick.
  assert (E : @SingleClick.wait_requested W options = throw cause)
    by (unfold SingleClick.wait_requested; rewrite Ht, Hp; reflexivity).
  revert Hclick.
  destruct target;
    unfold click, SingleClick.byXpath, SingleClick.bySelector,
      SingleClick.atCursor;
    rewrite E; unfold_command; cbn; repeat next_click_answer;
    intros Hclick; try discriminate; inversion Hclick; subst; reflexivity.
Qed.

(** X9.  When the lookup of clickByXpath or clickBySelector fails,
    nothing is clicked: whatever the options, the run is the lookup,
    its rejection and the two log records, no click is queued or
    performed, and the call rejects with the operation's error. *)
Theorem click_lookup_failure_clicks_nothing
    (target : ClickTarget) (l : Locator) (options cause : Val) (st st1 : W) :
  click_locator target = Some l ->
  browser (FindElement l) st = (Rejected cause, st1) ->
  click browser pageCompleteCheck target options st
  = (Throw (new_Error (click_failure_message target)), st1,
     [EvCall (FindElement l);
      EvSettled (FindElement l) (Rejected cause);
      EvLog LvError (error_record (Click target options));
      EvLog LvVerbose [cause]]).
Proof.
  intros Hl H.
  destruct target; inversion Hl; subst; unfold_command; cbn;
    rewrite H; reflexivity.
Qed.

(** X10.  The click goes to the element that was found: when the lookup
    of clickByXpath or clickBySelector resolves with an element, the
    next call queues the click on that very element, whatever the
    options. *)
Theorem click_targets_found_element
    (target : ClickTarget) (l : Locator) (options element : Val)
    (st st1 : W) :
  click_locator target = Some l ->
  browser (FindElement l) st = (Resolved element, st1) ->
  exists rest,
    calls (events (click browser pageCompleteCheck target options) st)
    = FindElement l :: ActionsClick (Some element) :: rest.
Proof.
  intros Hl H.
  destruct (wait_requested_cases (W := W) options)
    as [[cause [_ E]] | [b E]];
    destruct target; inversion Hl; subst;
    unfold click, SingleClick.byXpath, SingleClick.bySelector;
    rewrite E; try destruct b; unfold_command; cbn; rewrite H; cbn;
    repeat next_answer; eexists; reflexivity.
Qed.

(** X11.  clickAtCursor never looks an element up: whatever the options
    and however the driver answers, its first call queues a click with
    no element, and no call of the run is a [findElement]. *)
Theorem click_at_cursor_no_lookup (options : Val) (st : W) :
  (exists rest,
      calls (events (SingleClick.atCursor browser pageCompleteCheck options)
               st)
      = ActionsClick None :: rest)
  /\ forall l,
      ~ In (FindElement l)
          (calls (events (SingleClick.atCursor browser pageCompleteCheck
                            options) st)).
Proof.
  destruct (wait_requested_cases (W := W) options)
    as [[cause [_ E]] | [b E]];
    unfold SingleClick.atCursor; rewrite E; try destruct b;
    unfold_command; cbn; repeat next_answer;
    (split; [eexists; reflexivity
            | intros l F; cbn in F;
              repeat (destruct F as [F | F]; [discriminate |]);
              exact F]).
Qed.

(** X12.  A click that fails does not depend on its options: if the call
    without options rejects, the call with any options at all is the
    same run. *)
Theorem failed_click_ignores_options
    (target : ClickTarget) (options reason : Val) (st : W) :
  outcome (click browser pageCompleteCheck target VUndefined) st
    = Rejected reason ->
  click browser pageCompleteCheck target options st
  = click browser pageCompleteCheck target VUndefined st.
Proof.
  destruct (wait_requested_cases (W := W) options)
    as [[cause [_ E]] | [b E]];
    destruct target;
    unfold click, SingleClick.byXpath, SingleClick.bySelector,
      SingleClick.atCursor;
    rewrite E; try destruct b; unfold_command; cbn;
    repeat next_click_answer; intros H; try discriminate; reflexivity.
Qed.

End ClickRuns.

(* ================================================================= *)
(** ** What a successful command leaves behind *)

Section Success.
Context {W : Type}.
Variable browser : Browser W.
Variable pageCompleteCheck : Val.
Variable timer : Val -> W -> W.

(** X13.  A command that resolves has logged nothing, and it hands back
    nothing of what the driver found: its value is [undefined], or it is
    the value the completion predicate resolved with (byPageToComplete
    and the clicks that wait for it). *)
Theorem success_is_silent (c : Command) (st : W) (v : Val) :
  outcome (run browser pageCompleteCheck timer c) st = Resolved v ->
  logs (events (run browser pageCompleteCheck timer c) st) = []
  /\ (v = VUndefined
      \/ In (EvSettled (ExtraWait pageCompleteCheck) (Resolved v))
            (events (run browser pageCompleteCheck timer c) st)).
Proof.
  destruct c as [w maxTime | ms | | target options].
  - destruct w as [[| |] x | e]; unfold_command; cbn;
      next_answer; intros H; inversion H; subst; split; auto.
  - cbn. intros H; inversion H; subst. split; auto.
  - unfold_command; cbn. next_answer; intros H; inversion H; subst.
    split; [reflexivity | right; cbn; auto].
  - destruct (wait_requested_cases (W := W) options)
      as [[cause [_ E]] | [b E]];
      destruct target; unfold run, click, SingleClick.byXpath,
        SingleClick.bySelector, SingleClick.atCursor;
      rewrite E; try destruct b; unfold_command; cbn;
      repeat next_answer; intros H; inversion H; subst;
      (split; [reflexivity | cbn; auto 12]).
Qed.

End Success.

(* ================================================================= *)
(** ** The further properties on the simulated session *)

(** byCondition on a script that is true at once: the value [true] of
    the condition is dropped. *)
Lemma timed_wait_success_run_witness :
  outcome (Wait.byCondition Sim.browser
             "document.readyState === 'complete'" VUndefined) Sim.page
  = Resolved VUndefined.
Proof.
  pose proof (timed_wait_success_run Sim.browser
                (ForCondition "document.readyState === 'complete'") VUndefined
                Sim.page Sim.page (VBool true) eq_refl) as H.
  cbn [timed_wait] in H. unfold outcome. rewrite H. reflexivity.
Defined.

(** bySelector(".late", 300) on a page without it. *)
Lemma timed_wait_failure_run_witness :
  events (Wait.bySelector Sim.browser ".late" (VNum 300)) Sim.blank
  = [EvCall (DriverWait (ElementLocated (ByCss ".late")) (VNum 300));
     EvSettled (DriverWait (ElementLocated (ByCss ".late")) (VNum 300))
       (Rejected (Sim.timed_out 300));
     EvLog LvError [VStr "Element by selector %s was not located in %s ms";
                    VStr ".late"; VNum 300];
     EvLog LvVerbose [Sim.timed_out 300]].
Proof.
  pose proof (timed_wait_failure_run Sim.browser
                (ForElement KSelector ".late") (VNum 300) Sim.blank
                (Sim.at_time Sim.blank 300) (Sim.timed_out 300)
                eq_refl ltac:(vm_compute; reflexivity)) as H.
  cbn [timed_wait wait_by] in H. unfold events. rewrite H. reflexivity.
Defined.

(** byXpath("//a", NaN) is byXpath("//a", 6000). *)
Lemma timed_wait_falsy_is_default_witness :
  Wait.byXpath Sim.browser "//a" VNaN
  = Wait.byXpath Sim.browser "//a" (VNum 6000).
Proof.
  exact (proj1 (timed_wait_falsy_is_default Sim.browser
                  (ForElement KXpath "//a") VNaN eq_refl)).
Defined.

(** Two failing waits for [#submit] with the same error, one on the
    page where it comes late and one on the page where it never comes. *)
Lemma timed_wait_error_tells_timeout_witness :
  outcome (Wait.byId Sim.browser "submit" (VNum 500)) Sim.page
    = outcome (Wait.byId Sim.browser "submit" (VNum 500)) Sim.blank
  /\ 500 = 500.
Proof.
  split; [vm_compute; reflexivity |].
  apply (timed_wait_error_tells_timeout Sim.browser (ForElement KId "submit")
           500 500 Sim.page Sim.blank
           (new_Error "Element by id submit was not located in 500 ms"));
    [lia | lia | cbn; lia | cbn; lia
    | vm_compute; reflexivity | vm_compute; reflexivity].
Defined.

(** clickByXpath("//a", "") is the click without options. *)
Lemma click_falsy_options_ignored_witness :
  click Sim.browser Sim.check (OnXpath "//a") (VStr "")
  = click Sim.browser Sim.check (OnXpath "//a") VUndefined.
Proof.
  exact (click_falsy_options_ignored Sim.browser Sim.check (OnXpath "//a")
           (VStr "") eq_refl).
Defined.

(** clickAtCursor(true): the click is dispatched and the call fails. *)
Lemma click_primitive_options_fail_after_click_witness :
  Sim.clicked
    (final_state (SingleClick.atCursor Sim.browser Sim.check (VBool true))
       Sim.page) = [None]
  /\ outcome (SingleClick.atCursor Sim.browser Sim.check (VBool true)) Sim.page
    = Rejected (new_Error "Could not perform single click").
Proof.
  pose proof (click_primitive_options_fail_after_click Sim.browser Sim.check
                AtCursor (VBool true) _ _ Sim.page _ _
                eq_refl eq_refl eq_refl) as H.
  cbn [click] in H. unfold final_state, outcome. rewrite H.
  split; reflexivity.
Defined.

(** clickByXpath("//missing", {wait: true}). *)
Lemma click_lookup_failure_clicks_nothing_witness :
  calls (events (SingleClick.byXpath Sim.browser Sim.check "//missing"
                   wait_true) Sim.page)
  = [FindElement (ByXpath "//missing")].
Proof.
  unfold events.
  pose proof (click_lookup_failure_clicks_nothing Sim.browser Sim.check
                (OnXpath "//missing") (ByXpath "//missing") wait_true _
                Sim.page _ eq_refl eq_refl) as H.
  cbn [click] in H. rewrite H. reflexivity.
Defined.

(** clickBySelector(".go") queues the click on the element found. *)
Lemma click_targets_found_element_witness :
  exists rest,
    calls (events (SingleClick.bySelector Sim.browser Sim.check ".go"
                     VUndefined) Sim.page)
    = FindElement (ByCss ".go") :: ActionsClick (Some (VElement 0)) :: rest.
Proof.
  exact (click_targets_found_element Sim.browser Sim.check (OnSelector ".go")
           (ByCss ".go") VUndefined (VElement 0) Sim.page Sim.page
           eq_refl eq_refl).
Defined.

(** clickBySelector(".missing", 5) is clickBySelector(".missing"). *)
Lemma failed_click_ignores_options_witness :
  click Sim.browser Sim.check (OnSelector ".missing") (VNum 5) Sim.page
  = click Sim.browser Sim.check (OnSelector ".missing") VUndefined Sim.page.
Proof.
  apply (failed_click_ignores_options Sim.browser Sim.check
           (OnSelector ".missing") (VNum 5)
           (new_Error
              "Could not single click on element with selector .missing")).
  vm_compute; reflexivity.
Defined.

(** clickBySelector(".go", {wait: true}) resolving. *)
Lemma success_is_silent_witness :
  logs (events (run Sim.browser Sim.check Sim.timer
                  (Click (OnSelector ".go") wait_true)) Sim.page) = [].
Proof.
  apply (success_is_silent Sim.browser Sim.check Sim.timer
           (Click (OnSelector ".go") wait_true) Sim.page VUndefined).
  vm_compute; reflexivity.
Defined.
